(** * elog: Embedded Lightweight Organized Logger

    A shallow embedding of [include/elog/elog.h] and [src/elog.c].

    The library is a header of preprocessor macros.  The embedding follows
    the two stages a C translation unit goes through:

    - preprocessing: the conditional directives ([#if]) choose a replacement
      list for every macro, and a use of [ELOG_INFO(fmt, ...)] is rewritten
      into a statement (or into something that is not a statement);
    - execution: the statement runs on a state made of the run-time
      threshold, the calls made to [printf], and the caller's own state
      (which the caller's argument expressions may change).

    [printf] itself belongs to the host; a fragment of its formatting
    ([%s], [%d], [%%]) is modelled in [Module Printf] to read the text a
    call produces. *)

From Stdlib Require Import ZArith List String Ascii Bool Lia.
From Stdlib Require Import Numbers.DecimalString.
Import ListNotations.

Open Scope Z_scope.

(* ================================================================== *)
(** ** 1. Log levels (elog.h, lines 23-31) *)

Inductive elog_level_t : Type :=
| ELOG_LEVEL_OFF
| ELOG_LEVEL_CRITICAL
| ELOG_LEVEL_ERROR
| ELOG_LEVEL_WARN
| ELOG_LEVEL_INFO
| ELOG_LEVEL_DEBUG
| ELOG_LEVEL_TRACE.

(** The integer an enumerator denotes in C code: [ELOG_LEVEL_OFF = 0] and
    each following enumerator is one more than its predecessor. *)
Definition enum_value (l : elog_level_t) : Z :=
  match l with
  | ELOG_LEVEL_OFF => 0
  | ELOG_LEVEL_CRITICAL => 1
  | ELOG_LEVEL_ERROR => 2
  | ELOG_LEVEL_WARN => 3
  | ELOG_LEVEL_INFO => 4
  | ELOG_LEVEL_DEBUG => 5
  | ELOG_LEVEL_TRACE => 6
  end.

(** A level as it is written in a macro definition or in a directive: an
    integer literal, or the name of an enumerator of [elog_level_t]. *)
Inductive level_expr : Type :=
| LevelLit (z : Z)
| LevelName (l : elog_level_t).

(** Value of a level expression in compiled C code. *)
Definition c_eval (e : level_expr) : Z :=
  match e with
  | LevelLit z => z
  | LevelName l => enum_value l
  end.

(** Value of a level expression inside an [#if] directive.  The enumerators
    are declared by a [typedef enum], not by [#define]: the preprocessor
    does not know them, and in the controlling expression of [#if] every
    identifier that is left after macro replacement is replaced by the
    number 0 (C11, 6.10.1 paragraph 4). *)
Definition pp_eval (e : level_expr) : Z :=
  match e with
  | LevelLit z => z
  | LevelName _ => 0
  end.

(** [uint8_t] conversion. *)
Definition uint8 (z : Z) : Z := z mod 256.

(* ================================================================== *)
(** ** 2.-5. Build-time configuration (elog.h, lines 41-142)

    Every field is a macro the build may define before the header is
    read; [default_config] holds the header's [#ifndef] defaults. *)

Definition ESC : string := String (ascii_of_nat 27) EmptyString.
Definition LF : string := String (ascii_of_nat 10) EmptyString.

Record config : Type := {
  ELOG_COMPILED_LEVEL : level_expr;
  ELOG_USE_RUNTIME_LEVEL : bool;
  ELOG_USE_FILE_LINE : bool;
  ELOG_USE_COLOR : bool;
  ELOG_COLOR_CRITICAL : string;
  ELOG_COLOR_ERROR : string;
  ELOG_COLOR_WARN : string;
  ELOG_COLOR_INFO : string;
  ELOG_COLOR_DEBUG : string;
  ELOG_COLOR_TRACE : string;
  ELOG_COLOR_RESET : string;
  ELOG_LEVEL_FMT_CRITICAL : string;
  ELOG_LEVEL_FMT_ERROR : string;
  ELOG_LEVEL_FMT_WARN : string;
  ELOG_LEVEL_FMT_INFO : string;
  ELOG_LEVEL_FMT_DEBUG : string;
  ELOG_LEVEL_FMT_TRACE : string;
  (** the [ELOG_FILE_LINE_FMT] of the build, read only when
      [ELOG_USE_FILE_LINE] is on *)
  FILE_LINE_FMT_setting : string
}.

Definition default_config : config := {|
  ELOG_COMPILED_LEVEL := LevelName ELOG_LEVEL_INFO;
  ELOG_USE_RUNTIME_LEVEL := true;
  ELOG_USE_FILE_LINE := true;
  ELOG_USE_COLOR := true;
  ELOG_COLOR_CRITICAL := ESC ++ "[1;35m";
  ELOG_COLOR_ERROR := ESC ++ "[1;31m";
  ELOG_COLOR_WARN := ESC ++ "[1;33m";
  ELOG_COLOR_INFO := ESC ++ "[1;32m";
  ELOG_COLOR_DEBUG := ESC ++ "[1;36m";
  ELOG_COLOR_TRACE := ESC ++ "[0;37m";
  ELOG_COLOR_RESET := ESC ++ "[0m";
  ELOG_LEVEL_FMT_CRITICAL := "[CRITICAL]";
  ELOG_LEVEL_FMT_ERROR := "[ERROR]";
  ELOG_LEVEL_FMT_WARN := "[WARN]";
  ELOG_LEVEL_FMT_INFO := "[INFO]";
  ELOG_LEVEL_FMT_DEBUG := "[DEBUG]";
  ELOG_LEVEL_FMT_TRACE := "[TRACE]";
  FILE_LINE_FMT_setting := "[%s: %d]"
|}.

(** Functional updates of the three flags and of the compile-time level. *)
Definition with_compiled_level (e : level_expr) (c : config) : config :=
  {| ELOG_COMPILED_LEVEL := e;
     ELOG_USE_RUNTIME_LEVEL := ELOG_USE_RUNTIME_LEVEL c;
     ELOG_USE_FILE_LINE := ELOG_USE_FILE_LINE c;
     ELOG_USE_COLOR := ELOG_USE_COLOR c;
     ELOG_COLOR_CRITICAL := ELOG_COLOR_CRITICAL c;
     ELOG_COLOR_ERROR := ELOG_COLOR_ERROR c;
     ELOG_COLOR_WARN := ELOG_COLOR_WARN c;
     ELOG_COLOR_INFO := ELOG_COLOR_INFO c;
     ELOG_COLOR_DEBUG := ELOG_COLOR_DEBUG c;
     ELOG_COLOR_TRACE := ELOG_COLOR_TRACE c;
     ELOG_COLOR_RESET := ELOG_COLOR_RESET c;
     ELOG_LEVEL_FMT_CRITICAL := ELOG_LEVEL_FMT_CRITICAL c;
     ELOG_LEVEL_FMT_ERROR := ELOG_LEVEL_FMT_ERROR c;
     ELOG_LEVEL_FMT_WARN := ELOG_LEVEL_FMT_WARN c;
     ELOG_LEVEL_FMT_INFO := ELOG_LEVEL_FMT_INFO c;
     ELOG_LEVEL_FMT_DEBUG := ELOG_LEVEL_FMT_DEBUG c;
     ELOG_LEVEL_FMT_TRACE := ELOG_LEVEL_FMT_TRACE c;
     FILE_LINE_FMT_setting := FILE_LINE_FMT_setting c |}.

Definition with_runtime_level (b : bool) (c : config) : config :=
  {| ELOG_COMPILED_LEVEL := ELOG_COMPILED_LEVEL c;
     ELOG_USE_RUNTIME_LEVEL := b;
     ELOG_USE_FILE_LINE := ELOG_USE_FILE_LINE c;
     ELOG_USE_COLOR := ELOG_USE_COLOR c;
     ELOG_COLOR_CRITICAL := ELOG_COLOR_CRITICAL c;
     ELOG_COLOR_ERROR := ELOG_COLOR_ERROR c;
     ELOG_COLOR_WARN := ELOG_COLOR_WARN c;
     ELOG_COLOR_INFO := ELOG_COLOR_INFO c;
     ELOG_COLOR_DEBUG := ELOG_COLOR_DEBUG c;
     ELOG_COLOR_TRACE := ELOG_COLOR_TRACE c;
     ELOG_COLOR_RESET := ELOG_COLOR_RESET c;
     ELOG_LEVEL_FMT_CRITICAL := ELOG_LEVEL_FMT_CRITICAL c;
     ELOG_LEVEL_FMT_ERROR := ELOG_LEVEL_FMT_ERROR c;
     ELOG_LEVEL_FMT_WARN := ELOG_LEVEL_FMT_WARN c;
     ELOG_LEVEL_FMT_INFO := ELOG_LEVEL_FMT_INFO c;
     ELOG_LEVEL_FMT_DEBUG := ELOG_LEVEL_FMT_DEBUG c;
     ELOG_LEVEL_FMT_TRACE := ELOG_LEVEL_FMT_TRACE c;
     FILE_LINE_FMT_setting := FILE_LINE_FMT_setting c |}.

Definition with_file_line (b : bool) (c : config) : config :=
  {| ELOG_COMPILED_LEVEL := ELOG_COMPILED_LEVEL c;
     ELOG_USE_RUNTIME_LEVEL := ELOG_USE_RUNTIME_LEVEL c;
     ELOG_USE_FILE_LINE := b;
     ELOG_USE_COLOR := ELOG_USE_COLOR c;
     ELOG_COLOR_CRITICAL := ELOG_COLOR_CRITICAL c;
     ELOG_COLOR_ERROR := ELOG_COLOR_ERROR c;
     ELOG_COLOR_WARN := ELOG_COLOR_WARN c;
     ELOG_COLOR_INFO := ELOG_COLOR_INFO c;
     ELOG_COLOR_DEBUG := ELOG_COLOR_DEBUG c;
     ELOG_COLOR_TRACE := ELOG_COLOR_TRACE c;
     ELOG_COLOR_RESET := ELOG_COLOR_RESET c;
     ELOG_LEVEL_FMT_CRITICAL := ELOG_LEVEL_FMT_CRITICAL c;
     ELOG_LEVEL_FMT_ERROR := ELOG_LEVEL_FMT_ERROR c;
     ELOG_LEVEL_FMT_WARN := ELOG_LEVEL_FMT_WARN c;
     ELOG_LEVEL_FMT_INFO := ELOG_LEVEL_FMT_INFO c;
     ELOG_LEVEL_FMT_DEBUG := ELOG_LEVEL_FMT_DEBUG c;
     ELOG_LEVEL_FMT_TRACE := ELOG_LEVEL_FMT_TRACE c;
     FILE_LINE_FMT_setting := FILE_LINE_FMT_setting c |}.

Definition with_color (b : bool) (c : config) : config :=
  {| ELOG_COMPILED_LEVEL := ELOG_COMPILED_LEVEL c;
     ELOG_USE_RUNTIME_LEVEL := ELOG_USE_RUNTIME_LEVEL c;
     ELOG_USE_FILE_LINE := ELOG_USE_FILE_LINE c;
     ELOG_USE_COLOR := b;
     ELOG_COLOR_CRITICAL := ELOG_COLOR_CRITICAL c;
     ELOG_COLOR_ERROR := ELOG_COLOR_ERROR c;
     ELOG_COLOR_WARN := ELOG_COLOR_WARN c;
     ELOG_COLOR_INFO := ELOG_COLOR_INFO c;
     ELOG_COLOR_DEBUG := ELOG_COLOR_DEBUG c;
     ELOG_COLOR_TRACE := ELOG_COLOR_TRACE c;
     ELOG_COLOR_RESET := ELOG_COLOR_RESET c;
     ELOG_LEVEL_FMT_CRITICAL := ELOG_LEVEL_FMT_CRITICAL c;
     ELOG_LEVEL_FMT_ERROR := ELOG_LEVEL_FMT_ERROR c;
     ELOG_LEVEL_FMT_WARN := ELOG_LEVEL_FMT_WARN c;
     ELOG_LEVEL_FMT_INFO := ELOG_LEVEL_FMT_INFO c;
     ELOG_LEVEL_FMT_DEBUG := ELOG_LEVEL_FMT_DEBUG c;
     ELOG_LEVEL_FMT_TRACE := ELOG_LEVEL_FMT_TRACE c;
     FILE_LINE_FMT_setting := FILE_LINE_FMT_setting c |}.

(* ================================================================== *)
(** ** The host's [printf]

    A call to [printf] is recorded as its format string and the values of
    its arguments.  [render] gives the text such a call writes, for the
    conversions [%s], [%d] and [%%]; it is [None] where the C standard
    leaves the call undefined (a conversion whose argument is missing or
    has the wrong type, C11 7.21.6.1 paragraph 9) and for conversions
    outside this fragment.  Arguments in excess of the format are
    evaluated and ignored (7.21.6.1 paragraph 2). *)

Module Printf.

Inductive value : Type :=
| VStr (s : string)      (* a [char *] pointing to a string *)
| VInt (z : Z).          (* an [int] *)

Definition decimal (z : Z) : string := NilZero.string_of_int (Z.to_int z).

Fixpoint render (fmt : string) (args : list value) : option string :=
  match fmt with
  | EmptyString => Some EmptyString
  | String "%"%char EmptyString => None
  | String "%"%char (String c rest) =>
      if Ascii.eqb c "%"%char then
        option_map (String "%"%char) (render rest args)
      else if Ascii.eqb c "s"%char then
        match args with
        | VStr s :: args' => option_map (String.append s) (render rest args')
        | _ => None
        end
      else if Ascii.eqb c "d"%char then
        match args with
        | VInt z :: args' =>
            option_map (String.append (decimal z)) (render rest args')
        | _ => None
        end
      else None
  | String c rest => option_map (String c) (render rest args)
  end.

Definition call : Type := (string * list value)%type.

Definition render_call (c : call) : option string := render (fst c) (snd c).

End Printf.
Import Printf.

(* ================================================================== *)
(** ** 6.-7. The macros of the header *)

(** Where a macro is used: the values of [__FILE_NAME__] (the base name of
    the source file, supplied by the compiler) and of [__LINE__]. *)
Record call_site : Type := {
  file_name : string;
  line : Z
}.

(** The six admission points. *)
Inductive admission_point : Type :=
| CRITICAL | ERROR | WARN | INFO | DEBUG | TRACE.

Definition admission_point_eqb (a b : admission_point) : bool :=
  match a, b with
  | CRITICAL, CRITICAL | ERROR, ERROR | WARN, WARN
  | INFO, INFO | DEBUG, DEBUG | TRACE, TRACE => true
  | _, _ => false
  end.

(** The enumerator each admission point passes to [ELOG_IMPL]. *)
Definition level_of (a : admission_point) : elog_level_t :=
  match a with
  | CRITICAL => ELOG_LEVEL_CRITICAL
  | ERROR => ELOG_LEVEL_ERROR
  | WARN => ELOG_LEVEL_WARN
  | INFO => ELOG_LEVEL_INFO
  | DEBUG => ELOG_LEVEL_DEBUG
  | TRACE => ELOG_LEVEL_TRACE
  end.

(** [ELOG_FILE_LINE_FMT] (lines 153-161): the build's bracket format when
    [ELOG_USE_FILE_LINE] is on, no token at all otherwise. *)
Definition ELOG_FILE_LINE_FMT (cfg : config) : string :=
  if ELOG_USE_FILE_LINE cfg then FILE_LINE_FMT_setting cfg else EmptyString.

(** [ELOG_COLOR_BEGIN(color)] and [ELOG_COLOR_END] (lines 164-170). *)
Definition ELOG_COLOR_BEGIN (cfg : config) (color : string) : string :=
  if ELOG_USE_COLOR cfg then color else EmptyString.

Definition ELOG_COLOR_END (cfg : config) : string :=
  if ELOG_USE_COLOR cfg then ELOG_COLOR_RESET cfg else EmptyString.

(** The [#if ELOG_COMPILED_LEVEL >= ELOG_LEVEL_x] that guards the
    definition of each admission point (lines 196, 205, 214, ...): both
    sides are evaluated by the preprocessor. *)
Definition compile_gate (cfg : config) (l : elog_level_t) : bool :=
  pp_eval (ELOG_COMPILED_LEVEL cfg) >=? pp_eval (LevelName l).

(** The test [(level) <= elog_runtime_level] of [ELOG_IMPL] (line 180):
    an [int] comparison, the byte being promoted. *)
Definition runtime_gate (level threshold : Z) : bool := level <=? threshold.

(** [ELOG_LEVEL_FMT(lv)] (lines 140-142), kept by the header for
    backward compatibility: the label whose name ends in [lv]. *)
Definition ELOG_LEVEL_FMT (cfg : config) (lv : admission_point) : string :=
  match lv with
  | CRITICAL => ELOG_LEVEL_FMT_CRITICAL cfg
  | ERROR => ELOG_LEVEL_FMT_ERROR cfg
  | WARN => ELOG_LEVEL_FMT_WARN cfg
  | INFO => ELOG_LEVEL_FMT_INFO cfg
  | DEBUG => ELOG_LEVEL_FMT_DEBUG cfg
  | TRACE => ELOG_LEVEL_FMT_TRACE cfg
  end.

(** The colour each admission point passes to [ELOG_IMPL]. *)
Definition color_of (cfg : config) (a : admission_point) : string :=
  match a with
  | CRITICAL => ELOG_COLOR_CRITICAL cfg
  | ERROR => ELOG_COLOR_ERROR cfg
  | WARN => ELOG_COLOR_WARN cfg
  | INFO => ELOG_COLOR_INFO cfg
  | DEBUG => ELOG_COLOR_DEBUG cfg
  | TRACE => ELOG_COLOR_TRACE cfg
  end.

Section Emission.

(** The caller's state, which the caller's argument expressions read and
    may change. *)
Context {U : Type}.

(** An argument expression: evaluating it gives a value and a new
    caller state.  The caller's state is kept apart from the threshold
    and from the output: an argument that itself assigns the threshold or
    prints is a write by user code, not by the macro. *)
Definition expr : Type := U -> value * U.

Definition const (v : value) : expr := fun u => (v, u).

(** The tokens of an argument list after macro replacement. *)
Inductive token : Type :=
| Comma
| Arg (e : expr).

(** The argument list of a call, after its first argument: a non-empty,
    comma-separated sequence of expressions.  Anything else is a syntax
    error and the translation unit is rejected. *)
Fixpoint parse_args (ts : list token) : option (list expr) :=
  match ts with
  | [Arg e] => Some [e]
  | Arg e :: Comma :: rest => option_map (cons e) (parse_args rest)
  | _ => None
  end.

(** [ELOG_FILE_LINE_ARGS] (lines 157 and 160). *)
Definition ELOG_FILE_LINE_ARGS (cfg : config) (site : call_site)
  : list token :=
  if ELOG_USE_FILE_LINE cfg
  then [Arg (const (VStr (file_name site))); Comma;
        Arg (const (VInt (line site)))]
  else [].

(** The caller's variable arguments as tokens. *)
Fixpoint va_tokens (va : list expr) : list token :=
  match va with
  | [] => []
  | [e] => [Arg e]
  | e :: rest => Arg e :: Comma :: va_tokens rest
  end.

(** [, ##__VA_ARGS__]: the comma is dropped when the variable arguments
    are absent. *)
Definition comma_va_args (va : list expr) : list token :=
  match va with
  | [] => []
  | _ => Comma :: va_tokens va
  end.

(** Statements the admission points expand to. *)
Inductive stmt : Type :=
| SVoid0                                        (* ((void)0) *)
| SPrintf (fmt : string) (args : list expr)     (* printf(fmt, args); *)
| SIfLevel (level : Z) (body : stmt).
    (* if ((level) <= elog_runtime_level) { body } *)

(** The call [printf("%s%s " ELOG_FILE_LINE_FMT " " fmt "%s\n", ...)] of
    [ELOG_IMPL] (lines 181-183 and 190-191): the adjacent string
    literals are concatenated, the argument tokens are laid out in the
    order of the macro body and then parsed. *)
Definition impl_format (cfg : config) (fmt : string) : string :=
  ("%s%s " ++ ELOG_FILE_LINE_FMT cfg ++ " " ++ fmt ++ "%s" ++ LF)%string.

Definition impl_arg_tokens (cfg : config) (level_str color : string)
    (site : call_site) (va : list expr) : list token :=
  ([Arg (const (VStr (ELOG_COLOR_BEGIN cfg color))); Comma;
    Arg (const (VStr level_str)); Comma]
   ++ ELOG_FILE_LINE_ARGS cfg site
   ++ [Comma; Arg (const (VStr (ELOG_COLOR_RESET cfg)))]
   ++ comma_va_args va)%list.

(** [ELOG_IMPL(level, level_str, color, fmt, ...)] (lines 176-193).
    [None]: the expansion is not a C statement.  The [do { } while (0)]
    wrapper runs its body once. *)
Definition ELOG_IMPL (cfg : config) (level : elog_level_t)
    (level_str color : string) (site : call_site)
    (fmt : string) (va : list expr) : option stmt :=
  match parse_args (impl_arg_tokens cfg level_str color site va) with
  | None => None
  | Some args =>
      let call := SPrintf (impl_format cfg fmt) args in
      if ELOG_USE_RUNTIME_LEVEL cfg
      then Some (SIfLevel (enum_value level) call)
      else Some call
  end.

(** A macro with parameters [(fmt, ...)], used at a call site. *)
Definition macro : Type :=
  config -> call_site -> string -> list expr -> option stmt.

(** First definitions (lines 195-247). *)
Definition ELOG_CRITICAL : macro := fun cfg site fmt va =>
  if compile_gate cfg ELOG_LEVEL_CRITICAL
  then ELOG_IMPL cfg ELOG_LEVEL_CRITICAL (ELOG_LEVEL_FMT_CRITICAL cfg)
         (ELOG_COLOR_CRITICAL cfg) site fmt va
  else Some SVoid0.

Definition ELOG_ERROR : macro := fun cfg site fmt va =>
  if compile_gate cfg ELOG_LEVEL_ERROR
  then ELOG_IMPL cfg ELOG_LEVEL_ERROR (ELOG_LEVEL_FMT_ERROR cfg)
         (ELOG_COLOR_ERROR cfg) site fmt va
  else Some SVoid0.

Definition ELOG_WARN : macro := fun cfg site fmt va =>
  if compile_gate cfg ELOG_LEVEL_WARN
  then ELOG_IMPL cfg ELOG_LEVEL_WARN (ELOG_LEVEL_FMT_WARN cfg)
         (ELOG_COLOR_WARN cfg) site fmt va
  else Some SVoid0.

Definition ELOG_INFO : macro := fun cfg site fmt va =>
  if compile_gate cfg ELOG_LEVEL_INFO
  then ELOG_IMPL cfg ELOG_LEVEL_INFO (ELOG_LEVEL_FMT_INFO cfg)
         (ELOG_COLOR_INFO cfg) site fmt va
  else Some SVoid0.

Definition ELOG_DEBUG : macro := fun cfg site fmt va =>
  if compile_gate cfg ELOG_LEVEL_DEBUG
  then ELOG_IMPL cfg ELOG_LEVEL_DEBUG (ELOG_LEVEL_FMT_DEBUG cfg)
         (ELOG_COLOR_DEBUG cfg) site fmt va
  else Some SVoid0.

Definition ELOG_TRACE : macro := fun cfg site fmt va =>
  if compile_gate cfg ELOG_LEVEL_TRACE
  then ELOG_IMPL cfg ELOG_LEVEL_TRACE (ELOG_LEVEL_FMT_TRACE cfg)
         (ELOG_COLOR_TRACE cfg) site fmt va
  else Some SVoid0.

(** Second definitions of four of them (lines 249-283). *)
Definition ELOG_WARN_again : macro := fun cfg site fmt va =>
  if compile_gate cfg ELOG_LEVEL_WARN
  then ELOG_IMPL cfg ELOG_LEVEL_WARN (ELOG_LEVEL_FMT_WARN cfg)
         (ELOG_COLOR_WARN cfg) site fmt va
  else Some SVoid0.

Definition ELOG_INFO_again : macro := fun cfg site fmt va =>
  if compile_gate cfg ELOG_LEVEL_INFO
  then ELOG_IMPL cfg ELOG_LEVEL_INFO (ELOG_LEVEL_FMT_INFO cfg)
         (ELOG_COLOR_INFO cfg) site fmt va
  else Some SVoid0.

Definition ELOG_DEBUG_again : macro := fun cfg site fmt va =>
  if compile_gate cfg ELOG_LEVEL_DEBUG
  then ELOG_IMPL cfg ELOG_LEVEL_DEBUG (ELOG_LEVEL_FMT_DEBUG cfg)
         (ELOG_COLOR_DEBUG cfg) site fmt va
  else Some SVoid0.

Definition ELOG_TRACE_again : macro := fun cfg site fmt va =>
  if compile_gate cfg ELOG_LEVEL_TRACE
  then ELOG_IMPL cfg ELOG_LEVEL_TRACE (ELOG_LEVEL_FMT_TRACE cfg)
         (ELOG_COLOR_TRACE cfg) site fmt va
  else Some SVoid0.

(** The header as the preprocessor reads it: its [#define] directives
    for the admission points, in file order.  A macro may be defined
    again when the new definition is the same as the old one; the
    definition in force at a use is the latest one read. *)
Definition directive : Type := (admission_point * macro)%type.

Definition elog_h : list directive :=
  [ (CRITICAL, ELOG_CRITICAL); (ERROR, ELOG_ERROR); (WARN, ELOG_WARN);
    (INFO, ELOG_INFO); (DEBUG, ELOG_DEBUG); (TRACE, ELOG_TRACE);
    (WARN, ELOG_WARN_again); (INFO, ELOG_INFO_again);
    (DEBUG, ELOG_DEBUG_again); (TRACE, ELOG_TRACE_again) ].

(** The header the specification asks for: one definition per
    severity. *)
Definition elog_h_single : list directive :=
  [ (CRITICAL, ELOG_CRITICAL); (ERROR, ELOG_ERROR); (WARN, ELOG_WARN);
    (INFO, ELOG_INFO); (DEBUG, ELOG_DEBUG); (TRACE, ELOG_TRACE) ].

(** The macro table after the directives have been read in order. *)
Fixpoint macro_in_force (ds : list directive) (a : admission_point)
    (current : option macro) : option macro :=
  match ds with
  | [] => current
  | (b, m) :: rest =>
      macro_in_force rest a
        (if admission_point_eqb a b then Some m else current)
  end.

(** Use of the admission point [a] in a file that includes the header
    [h]: [None] when the name is not defined or when its expansion is
    not a statement. *)
Definition expand_with (h : list directive) (a : admission_point)
    (cfg : config) (site : call_site) (fmt : string) (va : list expr)
  : option stmt :=
  match macro_in_force h a None with
  | Some m => m cfg site fmt va
  | None => None
  end.

Definition ELOG (a : admission_point) : macro := expand_with elog_h a.

(* ---------------------------------------------------------------- *)
(** ** Execution *)

Record world : Type := {
  elog_runtime_level : Z;      (* the byte defined in elog.c *)
  stdout : list call;          (* calls made to printf, oldest first *)
  user : U                     (* the caller's state *)
}.

(** Arguments are evaluated before the call.  C does not fix the order in
    which the arguments of a call are evaluated (C11, 6.5.2.2 paragraph
    10); this function takes them from left to right, one of the orders
    a compiler may choose.  [evaluates] below is the evaluation in any
    order, of which this one is an instance. *)
Fixpoint eval_args (es : list expr) (u : U) : list value * U :=
  match es with
  | [] => ([], u)
  | e :: rest =>
      let (v, u1) := e u in
      let (vs, u2) := eval_args rest u1 in
      (v :: vs, u2)
  end.

Fixpoint exec (s : stmt) (w : world) : world :=
  match s with
  | SVoid0 => w
  | SPrintf fmt args =>
      let (vs, u') := eval_args args (user w) in
      {| elog_runtime_level := elog_runtime_level w;
         stdout := (stdout w ++ [(fmt, vs)])%list;
         user := u' |}
  | SIfLevel level body =>
      if runtime_gate level (elog_runtime_level w)
      then exec body w
      else w
  end.

(** A write to the threshold by user code: [elog_runtime_level = v;]. *)
Definition set_runtime_level (v : Z) (w : world) : world :=
  {| elog_runtime_level := uint8 v; stdout := stdout w; user := user w |}.

(** elog.c, lines 8-14: the definition of the byte, present only when
    the feature is on, with its initializer converted to [uint8_t]. *)
Definition elog_c (cfg : config) : option Z :=
  if ELOG_USE_RUNTIME_LEVEL cfg
  then Some (uint8 (c_eval (ELOG_COMPILED_LEVEL cfg)))
  else None.

(** The state at program start.  Without the feature there is no byte
    and no statement reads the field. *)
Definition program_start (cfg : config) (u : U) : world :=
  {| elog_runtime_level :=
       match elog_c cfg with Some v => v | None => 0 end;
     stdout := [];
     user := u |}.

(** The text on the output stream, when every call made is defined. *)
Fixpoint output_text (cs : list call) : option string :=
  match cs with
  | [] => Some EmptyString
  | c :: rest =>
      match render_call c, output_text rest with
      | Some s, Some t => Some (s ++ t)%string
      | _, _ => None
      end
  end.

(** A run of several statements, one after the other. *)
Definition run (ss : list stmt) (w : world) : world :=
  fold_left (fun w' s => exec s w') ss w.

(** An invocation wrote something: exactly one call was added. *)
Definition wrote_one (s : stmt) (w : world) : Prop :=
  exists c, stdout (exec s w) = (stdout w ++ [c])%list.

(** The argument list [ELOG_IMPL] gives to [printf] when the file and
    line are shown. *)
Definition impl_args (cfg : config) (level_str color : string)
    (site : call_site) (va : list expr) : list expr :=
  ([const (VStr (ELOG_COLOR_BEGIN cfg color)); const (VStr level_str);
    const (VStr (file_name site)); const (VInt (line site));
    const (VStr (ELOG_COLOR_RESET cfg))] ++ va)%list.

(** The statements an admission point can expand to. *)
Inductive expansion (cfg : config) (a : admission_point) (fmt : string)
  : stmt -> Prop :=
| expansion_removed :
    compile_gate cfg (level_of a) = false ->
    expansion cfg a fmt SVoid0
| expansion_gated args :
    compile_gate cfg (level_of a) = true ->
    ELOG_USE_RUNTIME_LEVEL cfg = true ->
    expansion cfg a fmt
      (SIfLevel (enum_value (level_of a))
         (SPrintf (impl_format cfg fmt) args))
| expansion_plain args :
    compile_gate cfg (level_of a) = true ->
    ELOG_USE_RUNTIME_LEVEL cfg = false ->
    expansion cfg a fmt (SPrintf (impl_format cfg fmt) args).

(** [s] is what some use of an admission point expands to under [cfg]. *)
Definition invocation (cfg : config) (s : stmt) : Prop :=
  exists a site fmt va, ELOG a cfg site fmt va = Some s.

End Emission.

Arguments expr : clear implicits.
Arguments token : clear implicits.
Arguments stmt : clear implicits.
Arguments macro : clear implicits.
Arguments directive : clear implicits.
Arguments world : clear implicits.

(* ================================================================== *)
(** ** Order of evaluation

    The arguments of a call may be evaluated in any order.  An argument
    list in the course of its evaluation holds, at each position, the
    expression still to evaluate or the value already obtained; a step
    evaluates any one of the expressions left, in the caller's current
    state. *)

Section Order.

Context {U : Type}.

Definition pending : Type := list (expr U + value).

Inductive eval_step : pending -> U -> pending -> U -> Prop :=
| eval_step_at (l1 : pending) (e : expr U) (l2 : pending) (u : U) :
    eval_step (l1 ++ inl e :: l2) u
      (l1 ++ inr (fst (e u)) :: l2) (snd (e u)).

Inductive eval_steps : pending -> U -> pending -> U -> Prop :=
| eval_steps_done l u : eval_steps l u l u
| eval_steps_next l u l1 u1 l2 u2 :
    eval_step l u l1 u1 -> eval_steps l1 u1 l2 u2 ->
    eval_steps l u l2 u2.

(** [es] evaluated in some order from the state [u] gives the values
    [vs], in the positions of their expressions, and the state [u']. *)
Definition evaluates (es : list (expr U)) (u : U) (vs : list value)
    (u' : U) : Prop :=
  eval_steps (map inl es) u (map inr vs) u'.

(** A statement run with its arguments evaluated in some order. *)
Inductive runs : stmt U -> world U -> world U -> Prop :=
| runs_void w : runs SVoid0 w w
| runs_printf f args w vs u' :
    evaluates args (user w) vs u' ->
    runs (SPrintf f args) w
      {| elog_runtime_level := elog_runtime_level w;
         stdout := (stdout w ++ [(f, vs)])%list;
         user := u' |}
| runs_if_true L body w w' :
    runtime_gate L (elog_runtime_level w) = true ->
    runs body w w' ->
    runs (SIfLevel L body) w w'
| runs_if_false L body w :
    runtime_gate L (elog_runtime_level w) = false ->
    runs (SIfLevel L body) w w.

(** An argument without side effects: it leaves the caller's state as it
    is (its value may depend on that state). *)
Definition pure (e : expr U) : Prop := forall u, snd (e u) = u.

(** The values of arguments without side effects. *)
Definition values_of (es : list (expr U)) (u : U) : list value :=
  map (fun e => fst (e u)) es.

(** Invariant of an evaluation of arguments without side effects from
    the state [u]: each position holds its expression or the value of
    that expression in [u]. *)
Definition settled (es : list (expr U)) (u : U) (l : pending) : Prop :=
  Forall2 (fun e x => x = inl e \/ x = inr (fst (e u))) es l.

(** One use of an admission point in a program. *)
Record use : Type := {
  use_point : admission_point;
  use_site : call_site;
  use_fmt : string;
  use_args : list (expr U)
}.

(** [s] is the statement the use [c] expands to. *)
Definition expands_to (cfg : config) (c : use) (s : stmt U) : Prop :=
  ELOG (use_point c) cfg (use_site c) (use_fmt c) (use_args c) = Some s.

(** Both tests on the way to [printf], for the threshold [t]: the
    directive that guards the admission point and, where the run-time
    feature is on, the comparison of [ELOG_IMPL]. *)
Definition passes (cfg : config) (a : admission_point) (t : Z) : bool :=
  compile_gate cfg (level_of a)
  && (negb (ELOG_USE_RUNTIME_LEVEL cfg)
      || runtime_gate (enum_value (level_of a)) t).

End Order.

Arguments use : clear implicits.
Arguments pending : clear implicits.

(* ================================================================== *)
(** ** Shapes of format strings

    Vocabulary for the text of a line: a piece of a format that holds no
    conversion is copied as it is; the bracket format of the build is a
    string conversion followed by an integer conversion, each between
    such pieces (by default the pieces are an opening bracket, a colon
    with a space, and a closing bracket). *)

Fixpoint no_conversion (s : string) : bool :=
  match s with
  | EmptyString => true
  | String c rest => negb (Ascii.eqb c "%"%char) && no_conversion rest
  end.

Definition bracket_format (cfg : config) (p1 p2 p3 : string) : Prop :=
  ELOG_USE_FILE_LINE cfg = true /\
  FILE_LINE_FMT_setting cfg = (p1 ++ "%s" ++ p2 ++ "%d" ++ p3)%string /\
  no_conversion p1 = true /\ no_conversion p2 = true /\
  no_conversion p3 = true.

(** What a line starts with: colour, label, a space, the bracket with the
    file and the line, a space. *)
Definition line_prefix (cfg : config) (a : admission_point)
    (site : call_site) (p1 p2 p3 : string) : string :=
  (ELOG_COLOR_BEGIN cfg (color_of cfg a) ++ ELOG_LEVEL_FMT cfg a ++ " "
   ++ p1 ++ file_name site ++ p2 ++ decimal (line site) ++ p3 ++ " ")%string.

(** The values [ELOG_IMPL] passes to [printf] ahead of the caller's. *)
Definition fixed_values (cfg : config) (a : admission_point)
    (site : call_site) : list value :=
  [VStr (ELOG_COLOR_BEGIN cfg (color_of cfg a)); VStr (ELOG_LEVEL_FMT cfg a);
   VStr (file_name site); VInt (line site); VStr (ELOG_COLOR_RESET cfg)].

(** The call site is kept by the preprocessor and, where the run-time
    test exists, its level passes it in [w]. *)
Definition admitted {U : Type} (cfg : config) (a : admission_point)
    (w : world U) : Prop :=
  compile_gate cfg (level_of a) = true /\
  (ELOG_USE_RUNTIME_LEVEL cfg = true ->
   enum_value (level_of a) <= elog_runtime_level w).

(* ================================================================== *)
(** ** Sample callers

    Call sites and an argument with a side effect, used to run the
    macros on concrete inputs.  The caller's state is one [int] variable
    [i]; [post_increment] is the argument expression [i++]. *)

Definition main_c_42 : call_site := {| file_name := "main.c"; line := 42 |}.
Definition main_c_10 : call_site := {| file_name := "main.c"; line := 10 |}.

Definition post_increment : expr Z := fun i => (VInt i, i + 1).

Definition literal_7 : expr Z := const (VInt 7).

(** The argument expressions [i] and [i + 1]. *)
Definition read_i : expr Z := fun i => (VInt i, i).
Definition read_i_plus_1 : expr Z := fun i => (VInt (i + 1), i).

(* ================================================================== *)
(** * Properties *)

Open Scope string_scope.
Open Scope Z_scope.

Section Facts.

Context {U : Type}.

Implicit Types (cfg : config) (a : admission_point) (site : call_site)
  (fmt : string) (va : list (expr U)) (s : stmt U) (w : world U).

(** *** The preprocessor's view of the compile-time gate *)

Lemma compile_gate_spec cfg l :
  compile_gate cfg l = (0 <=? pp_eval (ELOG_COMPILED_LEVEL cfg)).
Proof.
  unfold compile_gate. simpl. now rewrite Z.geb_leb.
Qed.

Lemma compile_gate_enumerator cfg l l' :
  ELOG_COMPILED_LEVEL cfg = LevelName l' -> compile_gate cfg l = true.
Proof.
  intros H. rewrite compile_gate_spec, H. reflexivity.
Qed.

Lemma compile_gate_of_le cfg a :
  enum_value (level_of a) <= c_eval (ELOG_COMPILED_LEVEL cfg) ->
  compile_gate cfg (level_of a) = true.
Proof.
  intros H. rewrite compile_gate_spec.
  destruct (ELOG_COMPILED_LEVEL cfg) as [z | l']; simpl in *.
  - apply Z.leb_le. destruct a; simpl in H; lia.
  - reflexivity.
Qed.

(** *** The macro table *)

Lemma ELOG_unfold a cfg site fmt va :
  ELOG a cfg site fmt va =
  if compile_gate cfg (level_of a)
  then ELOG_IMPL cfg (level_of a) (ELOG_LEVEL_FMT cfg a) (color_of cfg a)
         site fmt va
  else Some SVoid0.
Proof.
  destruct a; reflexivity.
Qed.

(** *** The argument list of [ELOG_IMPL] *)

Lemma parse_args_cons (e : expr U) (rest : list (token U)) :
  parse_args (Arg e :: Comma :: rest) = option_map (cons e) (parse_args rest).
Proof. reflexivity. Qed.

Lemma parse_va_tokens (e : expr U) va :
  parse_args (Arg e :: comma_va_args va) = Some (e :: va).
Proof.
  revert e. induction va as [| e' va IH]; intros e.
  - reflexivity.
  - specialize (IH e'). destruct va as [| e'' va'].
    + reflexivity.
    + change (parse_args (Arg e :: comma_va_args (e' :: e'' :: va')))
        with (option_map (cons e)
                (parse_args (Arg e' :: comma_va_args (e'' :: va')))).
      rewrite IH. reflexivity.
Qed.

Lemma parse_impl_with_file_line cfg level_str color site va :
  ELOG_USE_FILE_LINE cfg = true ->
  parse_args (impl_arg_tokens cfg level_str color site va)
  = Some (impl_args cfg level_str color site va).
Proof.
  intros H. unfold impl_arg_tokens, ELOG_FILE_LINE_ARGS. rewrite H.
  cbn [app]. rewrite !parse_args_cons, parse_va_tokens. reflexivity.
Qed.

Lemma parse_impl_without_file_line cfg level_str color site va :
  ELOG_USE_FILE_LINE cfg = false ->
  parse_args (impl_arg_tokens cfg level_str color site va) = None.
Proof.
  intros H. unfold impl_arg_tokens, ELOG_FILE_LINE_ARGS. rewrite H.
  reflexivity.
Qed.

Lemma ELOG_expansion a cfg site fmt va s :
  ELOG a cfg site fmt va = Some s -> expansion cfg a fmt s.
Proof.
  rewrite ELOG_unfold. unfold ELOG_IMPL.
  destruct (compile_gate cfg (level_of a)) eqn:G.
  - destruct (parse_args _) as [args |]; [| discriminate].
    destruct (ELOG_USE_RUNTIME_LEVEL cfg) eqn:R; intros [= <-].
    + now apply expansion_gated.
    + now apply expansion_plain.
  - intros [= <-]. now apply expansion_removed.
Qed.

Lemma ELOG_defined a cfg site fmt va :
  ELOG_USE_FILE_LINE cfg = true ->
  exists s, ELOG a cfg site fmt va = Some s.
Proof.
  intros F. rewrite ELOG_unfold. unfold ELOG_IMPL.
  rewrite parse_impl_with_file_line by exact F.
  destruct (compile_gate cfg (level_of a)),
    (ELOG_USE_RUNTIME_LEVEL cfg); eauto.
Qed.

Lemma ELOG_removed a cfg site fmt va w :
  compile_gate cfg (level_of a) = false ->
  ELOG a cfg site fmt va = Some SVoid0 /\ exec (SVoid0 (U := U)) w = w.
Proof.
  intros G. rewrite ELOG_unfold, G. now split.
Qed.

Lemma ELOG_ill_formed a cfg site fmt va :
  ELOG_USE_FILE_LINE cfg = false ->
  compile_gate cfg (level_of a) = true ->
  ELOG a cfg site fmt va = None.
Proof.
  intros F G. rewrite ELOG_unfold, G. unfold ELOG_IMPL.
  now rewrite parse_impl_without_file_line.
Qed.

(** *** Execution *)

Lemma exec_keeps_level s w :
  elog_runtime_level (exec s w) = elog_runtime_level w.
Proof.
  induction s as [| f args | L body IH]; simpl.
  - reflexivity.
  - destruct (eval_args args (user w)). reflexivity.
  - destruct (runtime_gate L (elog_runtime_level w)); [exact IH | reflexivity].
Qed.

Lemma exec_if L (body : stmt U) w :
  exec (SIfLevel L body) w
  = if runtime_gate L (elog_runtime_level w) then exec body w else w.
Proof. reflexivity. Qed.

Lemma exec_printf_stdout f (args : list (expr U)) w :
  stdout (exec (SPrintf f args) w)
  = (stdout w ++ [(f, fst (eval_args args (user w)))])%list.
Proof.
  simpl. destruct (eval_args args (user w)). reflexivity.
Qed.

Lemma not_wrote_one_unchanged s w :
  exec s w = w -> ~ wrote_one s w.
Proof.
  intros E [c H]. rewrite E in H.
  apply (f_equal (@List.length _)) in H.
  rewrite length_app in H. simpl in H. lia.
Qed.

Lemma runtime_gate_true L t : runtime_gate L t = true <-> L <= t.
Proof. unfold runtime_gate. apply Z.leb_le. Qed.

Lemma runtime_gate_false L t : runtime_gate L t = false <-> t < L.
Proof. unfold runtime_gate. apply Z.leb_gt. Qed.

Lemma level_of_positive a : 1 <= enum_value (level_of a) <= 6.
Proof. destruct a; simpl; lia. Qed.

Lemma expansion_denied cfg a fmt s w :
  expansion cfg a fmt s ->
  ELOG_USE_RUNTIME_LEVEL cfg = true ->
  elog_runtime_level w < enum_value (level_of a) ->
  exec s w = w.
Proof.
  intros E R D. destruct E as [G | args G R' | args G R'].
  - reflexivity.
  - simpl. apply runtime_gate_false in D. now rewrite D.
  - congruence.
Qed.

Lemma expansion_admitted cfg a fmt s w :
  expansion cfg a fmt s ->
  compile_gate cfg (level_of a) = true ->
  (ELOG_USE_RUNTIME_LEVEL cfg = true ->
   enum_value (level_of a) <= elog_runtime_level w) ->
  exists vs, stdout (exec s w) = (stdout w ++ [(impl_format cfg fmt, vs)])%list.
Proof.
  intros E G A. destruct E as [G' | args _ R | args _ R].
  - congruence.
  - apply A, runtime_gate_true in R.
    rewrite exec_if, R, exec_printf_stdout. eauto.
  - rewrite exec_printf_stdout. eauto.
Qed.

End Facts.

(* ================================================================== *)
(** * The run-time gate *)

Section RuntimeGate.

Context {U : Type}.

Implicit Types (cfg : config) (a : admission_point) (site : call_site)
  (fmt : string) (va : list (expr U)) (s : stmt U) (w : world U).

(** C5: with the run-time-level feature on, elog.c defines one byte; at
    program start it holds [COMPILED_LEVEL] (for each of the seven
    severities; INFO, that is 4, by default); no invocation of an
    admission point changes it, and a user write stores the byte
    written. *)
Theorem C5_threshold_byte cfg :
  ELOG_USE_RUNTIME_LEVEL cfg = true ->
  (forall l (u : U),
      c_eval (ELOG_COMPILED_LEVEL cfg) = enum_value l ->
      elog_c cfg = Some (enum_value l) /\
      elog_runtime_level (program_start cfg u) = enum_value l) /\
  (forall u : U,
      0 <= elog_runtime_level (program_start cfg u) < 256) /\
  (forall u : U,
      elog_runtime_level (program_start default_config u)
      = enum_value ELOG_LEVEL_INFO) /\
  (forall s w, invocation cfg s ->
      elog_runtime_level (exec s w) = elog_runtime_level w) /\
  (forall v w,
      0 <= v < 256 ->
      elog_runtime_level (set_runtime_level v w) = v /\
      stdout (set_runtime_level v w) = stdout w).
Proof.
  intros R.
  assert (Init : forall u : U,
             elog_runtime_level (program_start cfg u)
             = uint8 (c_eval (ELOG_COMPILED_LEVEL cfg))).
  { intros u. unfold program_start, elog_c. now rewrite R. }
  split; [| split; [| split; [| split]]].
  - intros l u H.
    assert (Small : uint8 (enum_value l) = enum_value l).
    { unfold uint8. apply Z.mod_small. destruct l; simpl; lia. }
    split.
    + unfold elog_c. now rewrite R, H, Small.
    + now rewrite Init, H, Small.
  - intros u. rewrite Init. unfold uint8. apply Z.mod_pos_bound. lia.
  - intros u. reflexivity.
  - intros s w _. apply exec_keeps_level.
  - intros v w Hv. split; [| reflexivity].
    simpl. unfold uint8. apply Z.mod_small. lia.
Qed.

(** C6: while the threshold holds OFF, no invocation of any admission
    point writes anything, whatever the compile-time level: neither a
    single invocation nor any run of them. *)
Theorem C6_off_silences_every_invocation cfg w :
  ELOG_USE_RUNTIME_LEVEL cfg = true ->
  elog_runtime_level w = enum_value ELOG_LEVEL_OFF ->
  (forall s, invocation cfg s -> stdout (exec s w) = stdout w) /\
  (forall ss, Forall (invocation cfg) ss ->
      stdout (run ss w) = stdout w /\
      elog_runtime_level (run ss w) = enum_value ELOG_LEVEL_OFF).
Proof.
  intros R Off.
  assert (One : forall s w', invocation cfg s ->
            elog_runtime_level w' = 0 -> exec s w' = w').
  { intros s w' (a & site & fmt & va & E) Z0.
    apply ELOG_expansion in E.
    apply (expansion_denied cfg a fmt s w' E R).
    rewrite Z0. pose proof (level_of_positive a). lia. }
  split.
  - intros s I. now rewrite One.
  - intros ss. revert w Off. induction ss as [| s ss IH]; intros w Off I.
    + split; [reflexivity | exact Off].
    + inversion I as [| ? ? Is Iss]; subst.
      unfold run. simpl. fold (run ss (exec s w)).
      rewrite (One s w Is Off). now apply IH.
Qed.

(** C7: the admission test is monotone in the threshold: a call admitted
    under [t] is admitted under every [t' >= t], for the test itself and
    for what an invocation does; and under the threshold TRACE every call
    site that the compile-time gate kept writes. *)
Theorem C7_admission_monotone :
  (forall L t t',
      t <= t' -> runtime_gate L t = true -> runtime_gate L t' = true) /\
  (forall cfg a site fmt va s,
      ELOG a cfg site fmt va = Some s ->
      (forall w w',
          elog_runtime_level w <= elog_runtime_level w' ->
          wrote_one s w -> wrote_one s w') /\
      (forall w,
          compile_gate cfg (level_of a) = true ->
          elog_runtime_level w = enum_value ELOG_LEVEL_TRACE ->
          wrote_one s w)).
Proof.
  split.
  { intros L t t' Hle H. apply runtime_gate_true in H.
    apply runtime_gate_true. lia. }
  intros cfg a site fmt va s E. apply ELOG_expansion in E. split.
  - intros w w' Hle W. destruct E as [G | args G R | args G R].
    + exfalso. now apply (not_wrote_one_unchanged SVoid0 w).
    + destruct (runtime_gate (enum_value (level_of a))
                  (elog_runtime_level w)) eqn:T.
      * apply runtime_gate_true in T.
        assert (T' : runtime_gate (enum_value (level_of a))
                       (elog_runtime_level w') = true)
          by (apply runtime_gate_true; lia).
        unfold wrote_one. rewrite exec_if, T', exec_printf_stdout. eauto.
      * exfalso. revert W. apply not_wrote_one_unchanged.
        simpl. now rewrite T.
    + unfold wrote_one. rewrite exec_printf_stdout. eauto.
  - intros w G T.
    destruct (expansion_admitted cfg a fmt s w E G) as [vs H].
    + intros _. rewrite T. pose proof (level_of_positive a). simpl. lia.
    + now exists (impl_format cfg fmt, vs).
Qed.

(** C9: each second definition of WARN, INFO, DEBUG and TRACE is the same
    as the first one, and the header with the repeated definitions gives
    every admission point the expansion it has in a header with a single
    definition per severity. *)
Theorem C9_repeated_definitions_inert :
  (ELOG_WARN_again (U := U) = ELOG_WARN /\
   ELOG_INFO_again (U := U) = ELOG_INFO /\
   ELOG_DEBUG_again (U := U) = ELOG_DEBUG /\
   ELOG_TRACE_again (U := U) = ELOG_TRACE) /\
  (forall a cfg site fmt va,
      ELOG a cfg site fmt va = expand_with elog_h_single a cfg site fmt va) /\
  (forall a cfg site fmt va w,
      option_map (fun s => exec s w) (ELOG a cfg site fmt va)
      = option_map (fun s => exec s w)
          (expand_with elog_h_single a cfg site fmt va)).
Proof.
  assert (T : forall a cfg site fmt va,
             ELOG a cfg site fmt va
             = expand_with elog_h_single a cfg site fmt va)
    by (intros a; destruct a; reflexivity).
  split; [| split].
  - repeat split.
  - exact T.
  - intros. now rewrite T.
Qed.

(** C10: with the run-time-level feature on, an invocation that the
    run-time gate denies ([L] above the threshold) evaluates none of its
    arguments and changes nothing: the state after it is the state before
    it. *)
Theorem C10_denied_invocation_has_no_effect cfg a site fmt va s w :
  ELOG_USE_RUNTIME_LEVEL cfg = true ->
  ELOG a cfg site fmt va = Some s ->
  elog_runtime_level w < enum_value (level_of a) ->
  exec s w = w /\ user (exec s w) = user w.
Proof.
  intros R E D. apply ELOG_expansion in E.
  rewrite (expansion_denied cfg a fmt s w E R D). now split.
Qed.

End RuntimeGate.

(** The run-time gate on concrete callers. *)

Ltac decide_by_running := vm_compute; first [reflexivity | discriminate].

Lemma C5_witness :
  elog_c default_config = Some 4 /\
  elog_runtime_level (program_start default_config 0) = 4 /\
  elog_runtime_level (set_runtime_level 2 (program_start default_config 0))
  = 2.
Proof.
  destruct (C5_threshold_byte (U := Z) default_config eq_refl)
    as (Init & _ & _ & _ & Write).
  destruct (Init ELOG_LEVEL_INFO 0 eq_refl) as [I1 I2].
  split; [exact I1 |]. split; [exact I2 |].
  apply (Write 2 (program_start default_config 0)). lia.
Defined.

Lemma C6_witness :
  exists s,
    ELOG CRITICAL default_config main_c_42 "c" [post_increment] = Some s /\
    stdout (exec s (set_runtime_level 0 (program_start default_config 0)))
    = [].
Proof.
  eexists. split; [reflexivity |].
  refine (proj1 (C6_off_silences_every_invocation default_config
                   (set_runtime_level 0 (program_start default_config 0))
                   eq_refl eq_refl) _ _).
  exists CRITICAL, main_c_42, "c", [post_increment]. reflexivity.
Defined.

Lemma C7_witness :
  runtime_gate 3 5 = true /\
  exists s,
    ELOG DEBUG default_config main_c_42 "d" [] = Some s /\
    wrote_one s (set_runtime_level 6 (program_start default_config 0)).
Proof.
  destruct (C7_admission_monotone (U := Z)) as [Mono Sites].
  split.
  - apply (Mono 3 4 5); [lia | reflexivity].
  - eexists. split; [reflexivity |].
    apply (Sites default_config DEBUG main_c_42 "d" [] _ eq_refl);
      reflexivity.
Defined.

Lemma C10_witness :
  exists s,
    ELOG WARN default_config main_c_42 "w" [post_increment] = Some s /\
    exec s (set_runtime_level 2 (program_start default_config 0))
    = set_runtime_level 2 (program_start default_config 0).
Proof.
  eexists. split; [reflexivity |].
  refine (proj1 (C10_denied_invocation_has_no_effect default_config WARN
                   main_c_42 "w" [post_increment] _ _ eq_refl eq_refl _)).
  decide_by_running.
Defined.

(* ================================================================== *)
(** * The header run on the scenarios of the specification *)

(** C1: with the default build ([COMPILED_LEVEL] is [ELOG_LEVEL_INFO]) the
    severity of DEBUG is above the compile-time level, and yet the
    directive that guards [ELOG_DEBUG] holds (as it does for TRACE when
    the level is given as the number 2): once user code raises the
    threshold to TRACE, [ELOG_DEBUG("x", i++)] evaluates its argument and
    writes a line. *)
Theorem C1_debug_call_survives_default_build :
  c_eval (ELOG_COMPILED_LEVEL default_config) < enum_value (level_of DEBUG) /\
  compile_gate default_config (level_of DEBUG) = true /\
  compile_gate (with_compiled_level (LevelLit 2) default_config)
    (level_of TRACE) = true /\
  exists s,
    ELOG DEBUG default_config main_c_42 "x" [post_increment] = Some s /\
    let w := set_runtime_level 6 (program_start default_config 0) in
    user w = 0 /\ user (exec s w) = 1 /\
    output_text (stdout (exec s w))
    = Some (ESC ++ "[1;36m[DEBUG] [main.c: 42] x" ++ ESC ++ "[0m" ++ LF).
Proof.
  split; [decide_by_running |]. split; [reflexivity |].
  split; [reflexivity |].
  eexists. split; [reflexivity |]. repeat split.
Qed.

(** C2: with the default build the call site [ELOG_INFO("hello %d", 7)]
    is kept ([L <= COMPILED_LEVEL]) and the threshold at program start
    admits it ([t >= L]); its invocation makes one call to [printf], but
    the arguments of that call do not match its format (the reset escape
    stands before the caller's argument, as in C3), so the call has no
    defined output and no line is written.  Under the threshold WARN,
    below [L], the same invocation writes nothing. *)
Theorem C2_admitted_call_with_argument_writes_no_line :
  enum_value (level_of INFO) <= c_eval (ELOG_COMPILED_LEVEL default_config) /\
  exists s,
    ELOG INFO default_config main_c_42 "hello %d" [literal_7] = Some s /\
    let w := program_start default_config 0 in
    enum_value (level_of INFO) <= elog_runtime_level w /\
    (exists c, stdout (exec s w) = [c] /\ render_call c = None) /\
    output_text (stdout (exec s w)) = None /\
    stdout (exec s (set_runtime_level 3 w)) = [].
Proof.
  split; [decide_by_running |].
  eexists. split; [reflexivity |]. cbv zeta.
  split; [decide_by_running |]. split; [| split; reflexivity].
  eexists. split; reflexivity.
Qed.

(** C3: with the default build, [ELOG_INFO("hello %d", 7)] at main.c:42
    calls [printf] once, with the reset escape placed before the caller's
    argument while the format has the caller's [%d] before the final
    [%s]: the conversions do not match their arguments and the call has
    no defined output.  With the last two arguments in the order of the
    format, the text is the line of the specification. *)
Theorem C3_info_hello_arguments_out_of_order :
  exists s,
    ELOG INFO default_config main_c_42 "hello %d" [literal_7] = Some s /\
    let w := program_start default_config 0 in
    let expected :=
      ESC ++ "[1;32m[INFO] [main.c: 42] hello 7" ++ ESC ++ "[0m" ++ LF in
    stdout (exec s w)
    = [("%s%s [%s: %d] hello %d%s" ++ LF,
        [VStr (ESC ++ "[1;32m"); VStr "[INFO]"; VStr "main.c"; VInt 42;
         VStr (ESC ++ "[0m"); VInt 7])] /\
    output_text (stdout (exec s w)) = None /\
    output_text (stdout (exec s w)) <> Some expected /\
    render ("%s%s [%s: %d] hello %d%s" ++ LF)
      [VStr (ESC ++ "[1;32m"); VStr "[INFO]"; VStr "main.c"; VInt 42;
       VInt 7; VStr (ESC ++ "[0m")]
    = Some expected.
Proof.
  eexists. split; [reflexivity |]. cbv zeta.
  split; [reflexivity |]. split; [reflexivity |]. split.
  - discriminate.
  - reflexivity.
Qed.

(** C4: with [ELOG_USE_COLOR] off the colour prefix is empty and so is
    [ELOG_COLOR_END], but [ELOG_IMPL] passes [ELOG_COLOR_RESET]:
    [ELOG_WARN("bad")] at main.c:10 writes the reset escape before the
    newline. *)
Theorem C4_reset_escape_written_without_color :
  let cfg := with_color false default_config in
  ELOG_COLOR_BEGIN cfg (ELOG_COLOR_WARN cfg) = "" /\
  ELOG_COLOR_END cfg = "" /\
  exists s,
    ELOG WARN cfg main_c_10 "bad" [] = Some s /\
    let w := program_start cfg 0 in
    output_text (stdout (exec s w))
    = Some ("[WARN] [main.c: 10] bad" ++ ESC ++ "[0m" ++ LF) /\
    output_text (stdout (exec s w))
    <> Some ("[WARN] [main.c: 10] bad" ++ LF).
Proof.
  cbv zeta. split; [reflexivity |]. split; [reflexivity |].
  eexists. split; [reflexivity |]. split; [reflexivity | discriminate].
Qed.

(** C8: with [ELOG_USE_FILE_LINE] off, [ELOG_FILE_LINE_ARGS] is empty and
    the argument list of [ELOG_IMPL] has two commas in a row:
    [ELOG_ERROR("e")] does not expand to a statement, with or without the
    run-time gate, although its format string is the one the line of the
    specification needs. *)
Theorem C8_no_statement_without_file_line :
  let cfg := with_file_line false default_config in
  impl_format cfg "e" = "%s%s  e%s" ++ LF /\
  map (fun t : token Z => match t with Comma => true | Arg _ => false end)
    (impl_arg_tokens cfg (ELOG_LEVEL_FMT_ERROR cfg) (ELOG_COLOR_ERROR cfg)
       main_c_42 [])
  = [false; true; false; true; true; false] /\
  ELOG (U := Z) ERROR cfg main_c_42 "e" [] = None /\
  ELOG (U := Z) ERROR (with_runtime_level false cfg) main_c_42 "e" [] = None.
Proof.
  cbv zeta. repeat split.
Qed.

(* ================================================================== *)
(** * Further properties of the header *)

(** ** Formatting *)

Lemma string_app_assoc (a b c : string) : (a ++ b) ++ c = a ++ (b ++ c).
Proof.
  induction a as [| x a IH]; simpl; [reflexivity | now rewrite IH].
Qed.

Lemma option_map_append (a b : string) (o : option string) :
  option_map (String.append a) (option_map (String.append b) o)
  = option_map (String.append (a ++ b)) o.
Proof.
  destruct o as [t |]; simpl; [now rewrite string_app_assoc | reflexivity].
Qed.

Lemma render_char (c : ascii) (rest : string) (args : list value) :
  Ascii.eqb c "%"%char = false ->
  render (String c rest) args = option_map (String c) (render rest args).
Proof.
  destruct c as [[] [] [] [] [] [] [] []]; intros H;
    first [discriminate H | reflexivity].
Qed.

Lemma render_literal (lit rest : string) (args : list value) :
  no_conversion lit = true ->
  render (lit ++ rest) args
  = option_map (String.append lit) (render rest args).
Proof.
  induction lit as [| c lit IH]; simpl; intros H.
  - now destruct (render rest args).
  - apply andb_prop in H. destruct H as [Hc Hl].
    apply negb_true_iff in Hc.
    change (render (String c (lit ++ rest)) args
            = option_map (String.append (String c lit)) (render rest args)).
    rewrite render_char by exact Hc. rewrite IH by exact Hl.
    now destruct (render rest args).
Qed.

Lemma render_string_conversion (s rest : string) (args : list value) :
  render ("%s" ++ rest) (VStr s :: args)
  = option_map (String.append s) (render rest args).
Proof. reflexivity. Qed.

Lemma render_integer_conversion (z : Z) (rest : string) (args : list value) :
  render ("%d" ++ rest) (VInt z :: args)
  = option_map (String.append (decimal z)) (render rest args).
Proof. reflexivity. Qed.

Lemma render_integer_conversion_of_string (s rest : string)
    (args : list value) :
  render ("%d" ++ rest) (VStr s :: args) = None.
Proof. reflexivity. Qed.

Lemma render_newline (args : list value) : render LF args = Some LF.
Proof. reflexivity. Qed.

(** The part of the format that [ELOG_IMPL] puts before the caller's
    consumes the first four values. *)
Lemma render_impl_format cfg a site p1 p2 p3 fmt (vs : list value) :
  bracket_format cfg p1 p2 p3 ->
  render (impl_format cfg fmt)
    (VStr (ELOG_COLOR_BEGIN cfg (color_of cfg a))
     :: VStr (ELOG_LEVEL_FMT cfg a)
     :: VStr (file_name site) :: VInt (line site) :: vs)
  = option_map (String.append (line_prefix cfg a site p1 p2 p3))
      (render (fmt ++ "%s" ++ LF) vs).
Proof.
  intros (F & B & H1 & H2 & H3).
  unfold impl_format, ELOG_FILE_LINE_FMT. rewrite F, B.
  change ("%s%s " ++ (p1 ++ "%s" ++ p2 ++ "%d" ++ p3) ++ " " ++ fmt ++ "%s" ++ LF)
    with ("%s" ++ "%s" ++ " " ++
          ((p1 ++ "%s" ++ p2 ++ "%d" ++ p3) ++ " " ++ fmt ++ "%s" ++ LF)).
  rewrite !string_app_assoc.
  rewrite !render_string_conversion.
  rewrite (render_literal " ") by reflexivity.
  rewrite (render_literal p1) by exact H1.
  rewrite render_string_conversion.
  rewrite (render_literal p2) by exact H2.
  rewrite render_integer_conversion.
  rewrite (render_literal p3) by exact H3.
  rewrite (render_literal " ") by reflexivity.
  rewrite !option_map_append. unfold line_prefix.
  now rewrite !string_app_assoc.
Qed.

(** ** Expansion and execution *)

Section Coverage.

Context {U : Type}.

Implicit Types (cfg : config) (a : admission_point) (site : call_site)
  (fmt : string) (va : list (expr U)) (s : stmt U) (w : world U).

Lemma ELOG_kept a cfg site fmt va s :
  ELOG a cfg site fmt va = Some s ->
  compile_gate cfg (level_of a) = true ->
  ELOG_USE_FILE_LINE cfg = true /\
  s = (let call :=
         SPrintf (impl_format cfg fmt)
           (impl_args cfg (ELOG_LEVEL_FMT cfg a) (color_of cfg a) site va) in
       if ELOG_USE_RUNTIME_LEVEL cfg
       then SIfLevel (enum_value (level_of a)) call
       else call).
Proof.
  intros E G. rewrite ELOG_unfold, G in E. unfold ELOG_IMPL in E.
  destruct (ELOG_USE_FILE_LINE cfg) eqn:F.
  - rewrite parse_impl_with_file_line in E by exact F. split; [reflexivity |].
    cbv zeta. destruct (ELOG_USE_RUNTIME_LEVEL cfg); now inversion E.
  - now rewrite parse_impl_without_file_line in E.
Qed.

Lemma eval_impl_args cfg a site va (u : U) :
  eval_args (impl_args cfg (ELOG_LEVEL_FMT cfg a) (color_of cfg a) site va) u
  = ((fixed_values cfg a site ++ fst (eval_args va u))%list,
     snd (eval_args va u)).
Proof.
  unfold impl_args, fixed_values. simpl.
  now destruct (eval_args va u).
Qed.

Lemma exec_printf f (args : list (expr U)) w :
  exec (SPrintf f args) w
  = {| elog_runtime_level := elog_runtime_level w;
       stdout := (stdout w ++ [(f, fst (eval_args args (user w)))])%list;
       user := snd (eval_args args (user w)) |}.
Proof.
  simpl. now destruct (eval_args args (user w)).
Qed.

Lemma ELOG_admitted_exec a cfg site fmt va s w :
  ELOG a cfg site fmt va = Some s ->
  admitted cfg a w ->
  exec s w
  = {| elog_runtime_level := elog_runtime_level w;
       stdout :=
         (stdout w
          ++ [(impl_format cfg fmt,
               (fixed_values cfg a site
                ++ fst (eval_args va (user w)))%list)])%list;
       user := snd (eval_args va (user w)) |}.
Proof.
  intros E [G A]. destruct (ELOG_kept a cfg site fmt va s E G) as [_ ->].
  cbv zeta.
  assert (P : exec (SPrintf (impl_format cfg fmt)
                (impl_args cfg (ELOG_LEVEL_FMT cfg a) (color_of cfg a)
                   site va)) w
              = {| elog_runtime_level := elog_runtime_level w;
                   stdout :=
                     (stdout w
                      ++ [(impl_format cfg fmt,
                           (fixed_values cfg a site
                            ++ fst (eval_args va (user w)))%list)])%list;
                   user := snd (eval_args va (user w)) |}).
  { rewrite exec_printf, eval_impl_args. reflexivity. }
  destruct (ELOG_USE_RUNTIME_LEVEL cfg).
  - rewrite exec_if.
    rewrite (proj2 (runtime_gate_true _ _) (A eq_refl)). exact P.
  - exact P.
Qed.

(** X2: for a format without conversions (the empty format included), an
    admitted invocation writes the colour prefix, the label, a space, the
    bracket with the file and the decimal line, a space, the message, the
    reset escape and one newline; variable arguments given in excess are
    evaluated and do not show.  The reset escape is [ELOG_COLOR_RESET]
    whether or not colours are enabled. *)
Theorem X2_text_of_plain_message a cfg site p1 p2 p3 fmt va s w :
  bracket_format cfg p1 p2 p3 ->
  no_conversion fmt = true ->
  ELOG a cfg site fmt va = Some s ->
  admitted cfg a w ->
  exists c,
    stdout (exec s w) = (stdout w ++ [c])%list /\
    render_call c
    = Some (line_prefix cfg a site p1 p2 p3 ++ fmt
            ++ ELOG_COLOR_RESET cfg ++ LF).
Proof.
  intros B N E A. rewrite (ELOG_admitted_exec a cfg site fmt va s w E A).
  eexists. split; [reflexivity |].
  unfold render_call, fixed_values. cbn [fst snd app].
  rewrite (render_impl_format cfg a site p1 p2 p3) by exact B.
  rewrite (render_literal fmt) by exact N.
  rewrite render_string_conversion.
  rewrite render_newline.
  reflexivity.
Qed.

(** X3: when the first conversion of the caller's format is [%d], the
    call that an admitted invocation makes is undefined whatever the
    caller passes: that conversion is given the reset escape, a string. *)
Theorem X3_integer_conversion_undefined a cfg site p1 p2 p3 lit rest va s w :
  bracket_format cfg p1 p2 p3 ->
  no_conversion lit = true ->
  ELOG a cfg site (lit ++ "%d" ++ rest) va = Some s ->
  admitted cfg a w ->
  exists c,
    stdout (exec s w) = (stdout w ++ [c])%list /\ render_call c = None.
Proof.
  intros B N E A.
  rewrite (ELOG_admitted_exec a cfg site _ va s w E A).
  eexists. split; [reflexivity |].
  unfold render_call, fixed_values. cbn [fst snd app].
  rewrite (render_impl_format cfg a site p1 p2 p3) by exact B.
  rewrite !string_app_assoc.
  rewrite (render_literal lit) by exact N.
  now rewrite render_integer_conversion_of_string.
Qed.

(** X4: when the caller's format has one conversion, [%s], and the caller
    passes one string, the line is defined but the reset escape takes the
    place of the string and the string is written last, just before the
    newline. *)
Theorem X4_string_conversion_shifted a cfg site p1 p2 p3 lit lit' e str s w :
  bracket_format cfg p1 p2 p3 ->
  no_conversion lit = true ->
  no_conversion lit' = true ->
  fst (e (user w)) = VStr str ->
  ELOG a cfg site (lit ++ "%s" ++ lit') [e] = Some s ->
  admitted cfg a w ->
  exists c,
    stdout (exec s w) = (stdout w ++ [c])%list /\
    render_call c
    = Some (line_prefix cfg a site p1 p2 p3 ++ lit
            ++ ELOG_COLOR_RESET cfg ++ lit' ++ str ++ LF).
Proof.
  intros B N N' V E A.
  rewrite (ELOG_admitted_exec a cfg site _ [e] s w E A).
  eexists. split; [reflexivity |].
  unfold render_call, fixed_values. cbn [fst snd app eval_args].
  destruct (e (user w)) as [v u'] eqn:Ev. simpl in V. subst v.
  cbn [fst snd app].
  rewrite (render_impl_format cfg a site p1 p2 p3) by exact B.
  rewrite !string_app_assoc.
  rewrite (render_literal lit) by exact N.
  rewrite render_string_conversion.
  rewrite (render_literal lit') by exact N'.
  rewrite render_string_conversion.
  rewrite render_newline.
  reflexivity.
Qed.

End Coverage.

(** ** Build settings, start-up and runs *)

Section Builds.

Context {U : Type}.

Implicit Types (cfg : config) (a : admission_point) (site : call_site)
  (fmt : string) (va : list (expr U)) (s : stmt U) (w : world U).

(** X5: the directives that guard the admission points do not tell the
    severities apart.  When [ELOG_COMPILED_LEVEL] is the name of an
    enumerator or a number that is not negative, all six admission points
    expand to [ELOG_IMPL]; when it is a negative number, all six expand to
    [((void)0)]. *)
Theorem X5_guard_keeps_all_or_none cfg :
  let kept_all :=
    forall a site fmt va,
      ELOG a cfg site fmt va
      = ELOG_IMPL cfg (level_of a) (ELOG_LEVEL_FMT cfg a) (color_of cfg a)
          site fmt va in
  let removed_all :=
    forall a site fmt va, ELOG a cfg site fmt va = Some SVoid0 in
  match ELOG_COMPILED_LEVEL cfg with
  | LevelName _ => kept_all
  | LevelLit z => if 0 <=? z then kept_all else removed_all
  end.
Proof.
  cbv zeta.
  assert (G : forall l, compile_gate cfg l
                        = (0 <=? pp_eval (ELOG_COMPILED_LEVEL cfg)))
    by apply compile_gate_spec.
  destruct (ELOG_COMPILED_LEVEL cfg) as [z | l]; simpl in G.
  - destruct (0 <=? z) eqn:Z0; intros a site fmt va;
      now rewrite ELOG_unfold, G.
  - intros a site fmt va. now rewrite ELOG_unfold, G.
Qed.



(** X9: a use of an admission point expands to a statement exactly when
    the file and line are shown or the directive removed the admission
    point; otherwise the translation unit is rejected. *)
Theorem X9_expansion_is_statement_iff a cfg site fmt va :
  (exists s, ELOG a cfg site fmt va = Some s)
  <-> (ELOG_USE_FILE_LINE cfg = true
       \/ compile_gate cfg (level_of a) = false).
Proof.
  split.
  - intros [s E].
    destruct (ELOG_USE_FILE_LINE cfg) eqn:F; [now left | right].
    destruct (compile_gate cfg (level_of a)) eqn:G; [| reflexivity].
    now rewrite (ELOG_ill_formed a cfg site fmt va F G) in E.
  - intros [F | G].
    + now apply ELOG_defined.
    + exists SVoid0. rewrite ELOG_unfold. now rewrite G.
Qed.

End Builds.

(** The further properties on concrete callers. *)

Lemma default_bracket_format : bracket_format default_config "[" ": " "]".
Proof. repeat split. Qed.

Lemma X2_witness :
  exists s c,
    ELOG INFO default_config main_c_42 "ready" [] = Some s /\
    stdout (exec s (program_start default_config 0)) = [c] /\
    render_call c
    = Some (ESC ++ "[1;32m[INFO] [main.c: 42] ready" ++ ESC ++ "[0m" ++ LF).
Proof.
  eexists.
  destruct (X2_text_of_plain_message (U := Z) INFO default_config main_c_42
              "[" ": " "]" "ready" [] _ (program_start default_config 0)
              default_bracket_format eq_refl eq_refl)
    as (c & Hc & Hr).
  - split; [reflexivity | intros _; decide_by_running].
  - exists c. split; [reflexivity |]. split; [exact Hc | exact Hr].
Defined.

Lemma X3_witness :
  exists s c,
    ELOG INFO default_config main_c_42 "hello %d" [literal_7] = Some s /\
    stdout (exec s (program_start default_config 0)) = [c] /\
    render_call c = None.
Proof.
  eexists.
  destruct (X3_integer_conversion_undefined INFO default_config main_c_42
              "[" ": " "]" "hello " "" [literal_7] _
              (program_start default_config 0)
              default_bracket_format eq_refl eq_refl)
    as (c & Hc & Hr).
  - split; [reflexivity | intros _; decide_by_running].
  - exists c. split; [reflexivity |]. split; [exact Hc | exact Hr].
Defined.

Lemma X4_witness :
  exists s c,
    ELOG ERROR default_config main_c_10 "name=%s" [const (VStr "bob")]
    = Some s /\
    stdout (exec s (program_start default_config 0)) = [c] /\
    render_call c
    = Some (ESC ++ "[1;31m[ERROR] [main.c: 10] name=" ++ ESC ++ "[0m"
            ++ "bob" ++ LF).
Proof.
  eexists.
  destruct (X4_string_conversion_shifted (U := Z) ERROR default_config
              main_c_10 "[" ": " "]" "name=" "" (const (VStr "bob")) "bob" _
              (program_start default_config 0)
              default_bracket_format eq_refl eq_refl eq_refl eq_refl)
    as (c & Hc & Hr).
  - split; [reflexivity | intros _; decide_by_running].
  - exists c. split; [reflexivity |]. split; [exact Hc | exact Hr].
Defined.



Lemma X9_witness :
  exists s, ELOG (U := Z) INFO default_config main_c_42 "m" [] = Some s.
Proof.
  apply (proj2 (X9_expansion_is_statement_iff INFO default_config main_c_42
                  "m" [])).
  left. reflexivity.
Defined.

(* ================================================================== *)
(** * Calls whose arguments have no side effects, in any order *)

Section AnyOrder.

Context {U : Type}.

Implicit Types (cfg : config) (a : admission_point) (site : call_site)
  (fmt : string) (va : list (expr U)) (s : stmt U) (w : world U).

(** *** Left to right is one of the orders *)

Lemma eval_steps_under_value (v : value) (l : pending U) u l' u' :
  eval_steps l u l' u' -> eval_steps (inr v :: l) u (inr v :: l') u'.
Proof.
  induction 1 as [| l u l1 u1 l2 u2 St _ IH].
  - apply eval_steps_done.
  - destruct St as [p e q u].
    eapply eval_steps_next; [| exact IH].
    exact (eval_step_at (inr v :: p) e q u).
Qed.

Lemma eval_args_evaluates (es : list (expr U)) (u : U) :
  evaluates es u (fst (eval_args es u)) (snd (eval_args es u)).
Proof.
  unfold evaluates. revert u.
  induction es as [| e es IH]; intros u; simpl.
  - apply eval_steps_done.
  - pose proof (eval_step_at [] e (map inl es) u) as St.
    destruct (e u) as [v u1]. specialize (IH u1).
    destruct (eval_args es u1) as [vs u2]. simpl in *.
    eapply eval_steps_next; [exact St |].
    now apply eval_steps_under_value.
Qed.

Lemma exec_runs s w : runs s w (exec s w).
Proof.
  induction s as [| f args | L body IH].
  - apply runs_void.
  - rewrite exec_printf. apply runs_printf. apply eval_args_evaluates.
  - rewrite exec_if.
    destruct (runtime_gate L (elog_runtime_level w)) eqn:G.
    + now apply runs_if_true.
    + now apply runs_if_false.
Qed.

(** *** Every order gives the same values *)

Lemma settled_start (es : list (expr U)) (u : U) :
  settled es u (map inl es).
Proof.
  induction es as [| e es IH]; simpl; constructor; auto.
Qed.

Lemma settled_step (es : list (expr U)) u (l l' : pending U) u' :
  Forall pure es -> settled es u l -> eval_step l u l' u' ->
  u' = u /\ settled es u l'.
Proof.
  intros P S St. destruct St as [l1 e l2 u].
  apply Forall2_app_inv_r in S as (es1 & es2 & S1 & S2 & ->).
  inversion S2 as [| e0 x es2' l2' Hx S2' ]; subst.
  destruct Hx as [Hx | Hx]; [| discriminate Hx].
  injection Hx as <-.
  apply Forall_app in P as [_ P]. inversion P as [| ? ? Pe _]; subst.
  split; [apply Pe |].
  apply Forall2_app; [exact S1 |].
  constructor; [now right | exact S2'].
Qed.

Lemma settled_steps (es : list (expr U)) (l l' : pending U) u u' :
  Forall pure es -> eval_steps l u l' u' -> settled es u l ->
  u' = u /\ settled es u l'.
Proof.
  intros P St. induction St as [| l u l1 u1 l2 u2 St1 _ IH]; intros S.
  - now split.
  - destruct (settled_step es u l l1 u1 P S St1) as [-> S1].
    now apply IH.
Qed.

Lemma settled_values (es : list (expr U)) (u : U) (vs : list value) :
  settled es u (map inr vs) -> vs = values_of es u.
Proof.
  revert vs. induction es as [| e es IH]; intros vs S.
  - destruct vs; [reflexivity | inversion S].
  - destruct vs as [| v vs]; [inversion S |].
    simpl in S. inversion S as [| ? ? ? ? Hx S']; subst.
    destruct Hx as [Hx | Hx]; [discriminate Hx |].
    injection Hx as ->. simpl. f_equal. now apply IH.
Qed.

Lemma evaluates_pure (es : list (expr U)) u vs u' :
  Forall pure es -> evaluates es u vs u' ->
  vs = values_of es u /\ u' = u.
Proof.
  intros P E.
  destruct (settled_steps es _ _ u u' P E (settled_start es u)) as [-> S].
  split; [now apply settled_values | reflexivity].
Qed.

Lemma impl_args_pure cfg (level_str color : string) site va :
  Forall pure va -> Forall pure (impl_args cfg level_str color site va).
Proof.
  intros P. unfold impl_args. simpl.
  repeat (apply Forall_cons; [intros u; reflexivity |]). exact P.
Qed.

(** What an admitted invocation with such arguments leaves behind. *)
Lemma runs_admitted_pure a cfg site fmt va s w w' :
  ELOG a cfg site fmt va = Some s ->
  admitted cfg a w ->
  Forall pure va ->
  runs s w w' ->
  w' = {| elog_runtime_level := elog_runtime_level w;
          stdout :=
            (stdout w
             ++ [(impl_format cfg fmt,
                  (fixed_values cfg a site
                   ++ values_of va (user w))%list)])%list;
          user := user w |}.
Proof.
  intros E [G A] P R.
  destruct (ELOG_kept a cfg site fmt va s E G) as [_ ->]. cbv zeta in R.
  assert (Call : forall w1,
             runs (SPrintf (impl_format cfg fmt)
                     (impl_args cfg (ELOG_LEVEL_FMT cfg a) (color_of cfg a)
                        site va)) w w1 ->
             w1 = {| elog_runtime_level := elog_runtime_level w;
                     stdout :=
                       (stdout w
                        ++ [(impl_format cfg fmt,
                             (fixed_values cfg a site
                              ++ values_of va (user w))%list)])%list;
                     user := user w |}).
  { intros w1 R1. inversion R1 as [| f args w0 vs u' Ev | |]; subst.
    apply evaluates_pure in Ev as [-> ->];
      [reflexivity | now apply impl_args_pure]. }
  destruct (ELOG_USE_RUNTIME_LEVEL cfg).
  - inversion R as [| | L body w0 w1 T Rb | L body w0 T]; subst.
    + now apply Call.
    + rewrite (proj2 (runtime_gate_true _ _) (A eq_refl)) in T.
      discriminate T.
  - now apply Call.
Qed.

Lemma passes_admitted cfg a w :
  passes cfg a (elog_runtime_level w) = true -> admitted cfg a w.
Proof.
  unfold passes, admitted. intros H.
  apply andb_prop in H as [G T]. split; [exact G |].
  intros R. rewrite R in T. simpl in T. now apply runtime_gate_true.
Qed.

Lemma exec_not_passing a cfg site fmt va s w :
  ELOG a cfg site fmt va = Some s ->
  passes cfg a (elog_runtime_level w) = false ->
  exec s w = w.
Proof.
  intros E N. apply ELOG_expansion in E. unfold passes in N.
  destruct E as [G | args G R | args G R].
  - reflexivity.
  - rewrite G, R in N. simpl in N. rewrite exec_if. now rewrite N.
  - rewrite G, R in N. discriminate N.
Qed.



End AnyOrder.


